(** * sunpy.coords.util: differential rotation and solar ephemeris

    A shallow embedding of [src/sunpy/coords/util.py] ([diff_rot], [rot_xy],
    [pb0r], [sun_pos]) and the properties of it that the specification
    states.

    The Python functions are translated as pure functions into an error
    monad ([result]): a Python exception is the constructor [Raise].  What the
    module imports ([numpy], [datetime], [sunpy.time]) is not part of the
    source file; it is taken as an interface, the class [Runtime], so that
    every structural property is proved for any implementation of the
    floating-point and calendar primitives.  Properties that depend on
    arithmetic laws are proved at the instance [RealRuntime], where a float is
    read as the real number it denotes and every primitive is exact.

    Conventions:
    - a value is a scalar or a one-dimensional array ([value]); the numpy
      functions act elementwise ([np.lift1], [np.lift2]);
    - a numeric literal of the source is [lit q], [q] the rational the
      decimal digits denote;
    - a local variable that only one branch assigns is an [option], read with
      [load_local];
    - [parse_time] and [julian_day] are total: their arguments range over the
      values they accept;
    - the clock ([datetime.datetime.utcnow()]) is an argument of the function
      that reads it. *)

From Stdlib Require Import String List ZArith QArith Bool Lia.
From Stdlib Require Import Reals Lra.
Import ListNotations.

Set Implicit Arguments.

(** ** Exceptions and the error monad *)

(** The Python exceptions the module can raise. *)
Inductive exn : Type :=
| ValueError (msg : string)
| TypeError (msg : string)
| KeyError (key : string)
| NameError (name : string)
| UnboundLocalError (name : string)
| OverflowError (msg : string).

Inductive result (A : Type) : Type :=
| Ok (a : A)
| Raise (e : exn).

Arguments Ok {A} a.
Arguments Raise {A} e.

Definition bind {A B : Type} (m : result A) (k : A -> result B) : result B :=
  match m with
  | Ok a => k a
  | Raise e => Raise e
  end.

Declare Scope py_scope.
Delimit Scope py_scope with py.

Notation "x <- m ;; k" := (bind m (fun x => k))
  (at level 61, m at next level, right associativity) : py_scope.
Notation "' p <- m ;; k" := (bind m (fun x => let p := x in k))
  (at level 61, p pattern, m at next level, right associativity) : py_scope.

(** Reading a local variable that an earlier branch may have left unbound. *)
Definition load_local {A : Type} (name : string) (slot : option A) : result A :=
  match slot with
  | Some a => Ok a
  | None => Raise (UnboundLocalError name)
  end.

(** ** Values: Python scalars and one-dimensional numpy arrays *)

Inductive value (F : Type) : Type :=
| Scalar (x : F)
| NDArray (xs : list F).

Arguments Scalar {F} x.
Arguments NDArray {F} xs.

(** The [date] argument of [sun_pos] and [pb0r]: a calendar value (anything
    [parse_time] accepts that is not a number) or a number / array of
    numbers. *)
Inductive date_arg (F P : Type) : Type :=
| Time (c : P)
| Num (v : value F).

Arguments Time {F P} c.
Arguments Num {F P} v.

(** ** The imported primitives

    [timedelta(days=d)] and [timedelta(seconds=s)] can fail (a magnitude
    beyond [timedelta.max]), so they return a [result]; the numpy functions
    never raise on floats.  [julian_day] is applied to the [date] argument as
    it comes, a calendar value or a number. *)

Class Runtime : Type := {
  (* IEEE doubles: Python [float] and [numpy.float64] *)
  float : Type;
  lit : Q -> float;                       (* a numeric literal of the source *)
  fadd : float -> float -> float;
  fsub : float -> float -> float;
  fmul : float -> float -> float;
  fdiv : float -> float -> float;         (* true division *)
  fneg : float -> float;
  fpow : float -> Z -> float;             (* [x ** n], [n] an integer literal *)
  flt : float -> float -> bool;           (* [x < y] *)
  (* numpy ufuncs on one element *)
  np_sin : float -> float;
  np_cos : float -> float;
  np_tan : float -> float;
  np_arctan : float -> float;
  np_arcsin : float -> float;
  np_arctan2 : float -> float -> float;
  np_mod : float -> float -> float;
  np_deg2rad : float -> float;
  np_rad2deg : float -> float;
  np_round : float -> Z -> float;
  (* datetime *)
  timedelta : Type;
  timedelta_days : float -> result timedelta;     (* [timedelta(days=d)] *)
  timedelta_seconds : float -> result timedelta;  (* [timedelta(seconds=s)] *)
  total_seconds : timedelta -> float;
  datetime : Type;
  datetime_sub : datetime -> datetime -> timedelta;
  (* sunpy.time *)
  pytime : Type;
  parse_time : pytime -> datetime;
  julian_day : date_arg float pytime -> float
}.

(** ** numpy: elementwise operations

    A scalar is broadcast against an array; two arrays are combined position
    by position (in this module two arrays that meet always derive from the
    same input, so they have the same shape). *)

Module np.
Section Ufuncs.

Context {RT : Runtime}.

Fixpoint zip_with (f : float -> float -> float) (xs ys : list float) : list float :=
  match xs, ys with
  | x :: xs', y :: ys' => f x y :: zip_with f xs' ys'
  | _, _ => []
  end.

Definition lift1 (f : float -> float) (v : value float) : value float :=
  match v with
  | Scalar x => Scalar (f x)
  | NDArray xs => NDArray (map f xs)
  end.

Definition lift2 (f : float -> float -> float) (a b : value float) : value float :=
  match a, b with
  | Scalar x, Scalar y => Scalar (f x y)
  | Scalar x, NDArray ys => NDArray (map (f x) ys)
  | NDArray xs, Scalar y => NDArray (map (fun x => f x y) xs)
  | NDArray xs, NDArray ys => NDArray (zip_with f xs ys)
  end.

Definition add := lift2 fadd.
Definition sub := lift2 fsub.
Definition mul := lift2 fmul.
Definition div := lift2 fdiv.
Definition neg := lift1 fneg.
Definition pow (v : value float) (n : Z) := lift1 (fun x => fpow x n) v.

Definition sin := lift1 np_sin.
Definition cos := lift1 np_cos.
Definition tan := lift1 np_tan.
Definition arctan := lift1 np_arctan.
Definition arcsin := lift1 np_arcsin.
Definition arctan2 := lift2 np_arctan2.
Definition mod_ := lift2 np_mod.
Definition deg2rad := lift1 np_deg2rad.
Definition rad2deg := lift1 np_rad2deg.
Definition round (v : value float) (decimals : Z) :=
  lift1 (fun x => np_round x decimals) v.

(** [np.array(v).shape] of a scalar or a one-dimensional array. *)
Definition shape (v : value float) : list nat :=
  match v with
  | Scalar _ => []
  | NDArray xs => [length xs]
  end.

End Ufuncs.
End np.

Declare Scope np_scope.
Delimit Scope np_scope with np.
Bind Scope np_scope with value.

Notation "x + y" := (np.add x y) : np_scope.
Notation "x - y" := (np.sub x y) : np_scope.
Notation "x * y" := (np.mul x y) : np_scope.
Notation "x / y" := (np.div x y) : np_scope.
Notation "- x" := (np.neg x) : np_scope.
Notation "x ** n" := (np.pow x n%Z) (at level 30, right associativity) : np_scope.

Section Program.

Context {RT : Runtime}.

Local Open Scope py_scope.
Local Open Scope string_scope.
Local Open Scope np_scope.

Local Abbreviation val := (value float).

(** A numeric literal used where a scalar or an array may stand. *)
Definition pyfloat (q : Q) : val := Scalar (lit q).

Notation "$ q" := (pyfloat q%Q) (at level 1, q constr at level 0, format "$ q") : np_scope.

(** The elements of a value, in order. *)
Definition elements (v : val) : list float :=
  match v with
  | Scalar x => [x]
  | NDArray xs => xs
  end.

(** Every element of a value satisfies [P]. *)
Definition all_elements (P : float -> Prop) (v : val) : Prop :=
  Forall P (elements v).

(** [name in names] on strings. *)
Definition in_list (name : string) (names : list string) : bool :=
  existsb (String.eqb name) names.

(** [d[key]] on a dictionary literal. *)
Fixpoint getitem {A : Type} (d : list (string * A)) (key : string) : result A :=
  match d with
  | [] => Raise (KeyError key)
  | (k, a) :: d' => if String.eqb key k then Ok a else getitem d' key
  end.

(** *** diff_rot *)

(** The [ddays] argument: a number of days or a [timedelta] object. *)
Inductive duration : Type :=
| Days (d : float)
| Delta (td : timedelta).

(** The message of line 74, a triple-quoted string that spans two lines. *)
Definition rot_type_message : string :=
  "rot_type must equal one of"
  ++ String (Ascii.ascii_of_nat 10)
       "                        { 'howard' | 'allen' | 'snodgrass' }".

Definition rot_params : list (string * (val * val * val)) :=
  [("howard", ($2.894, - $0.428, - $0.370));
   ("snodgrass", ($2.851, - $0.343, - $0.474))].

(** Lines 73-85: the value of [rotation_deg] before the frame correction. *)
Definition rotation_deg (rot_type : string)
    (delta_seconds delta_days sin2l sin4l : val) : result val :=
  if negb (in_list rot_type ["howard"; "allen"; "snodgrass"]) then
    Raise (ValueError rot_type_message)
  else if String.eqb rot_type "allen" then
    Ok (delta_days * ($14.44 - ($3.0 * sin2l)))
  else
    '(A, B, C) <- getitem rot_params rot_type ;;
    let rotation_rate := A + B * sin2l + C * sin4l in
    Ok (rotation_rate * $1e-6 * delta_seconds / np.deg2rad $1).

Definition diff_rot (ddays : duration) (latitude : val)
    (rot_type frame_time : string) : result val :=
  (* [delta] is assigned only when [ddays] is not a timedelta *)
  delta <- match ddays with
           | Days d => td <- timedelta_days d ;; Ok (Some td)
           | Delta _ => Ok None
           end ;;
  delta <- load_local "delta" delta ;;
  let delta_seconds := Scalar (total_seconds delta) in
  let delta_days := delta_seconds / $24 / $3600 in
  let sin2l := (np.sin (np.deg2rad latitude)) ** 2 in
  let sin4l := sin2l ** 2 in
  rotation_deg <- rotation_deg rot_type delta_seconds delta_days sin2l sin4l ;;
  let rotation_deg :=
    if String.eqb frame_time "synodic" then rotation_deg - $0.9856 * delta_days
    else rotation_deg in
  Ok (np.round rotation_deg 4).

(** *** rot_xy *)

(** The [interval] keyword: a [timedelta] object or a number of seconds. *)
Inductive interval_arg : Type :=
| IntervalDelta (td : timedelta)
| IntervalSeconds (s : float).

(** The keyword arguments [rot_xy] reads; an absent keyword and an explicit
    [None] are both [None] ([kwargs.get(...) is not None]). *)
Record time_kwargs : Type := {
  tstart : option pytime;
  tend : option pytime;
  interval : option interval_arg
}.

Definition is_none {A : Type} (o : option A) : bool :=
  match o with
  | None => true
  | Some _ => false
  end.

(** [s1 != s2] on shape tuples. *)
Definition shape_neq (s1 s2 : list nat) : bool :=
  if list_eq_dec Nat.eq_dec s1 s2 then false else true.

Definition shape_message : string :=
  "Input co-ordinates must have the same shape.".

Definition time_message : string :=
  "You need to specify 'tstart' & 'tend', or 'tstart' and 'interval'".

(** [now] is what [datetime.datetime.utcnow()] reads during the call; [date]
    is never used by the body.  The function has a single [return None]. *)
Definition rot_xy (x y : val) (date : pytime) (now : datetime)
    (kwargs : time_kwargs) : result unit :=
  (* must have pairs of co-ordinates *)
  if shape_neq (np.shape x) (np.shape y) then
    Raise (ValueError shape_message)
  else
  let tend_ := match tend kwargs with
               | Some t => parse_time t
               | None => now
               end in
  let delta := match tstart kwargs with
               | Some t => Some (datetime_sub tend_ (parse_time t))
               | None => None
               end in
  delta <- match interval kwargs with
           | Some (IntervalDelta td) => Ok (Some td)
           | Some (IntervalSeconds s) => td <- timedelta_seconds s ;; Ok (Some td)
           | None => Ok delta
           end ;;
  if (is_none (tstart kwargs) && is_none (tend kwargs))
     || (is_none (tstart kwargs) && is_none (interval kwargs)) then
    Raise (ValueError time_message)
  else
  (* differentially rotate if interval is non-zero *)
  delta <- load_local "delta" delta ;;
  if flt (lit 0.0) (total_seconds delta) then
    (* [convert_hcc_hg(rsun, b0, l0, x, y)]: the arguments are evaluated
       left to right and [rsun] is bound nowhere *)
    Raise (NameError "rsun")
  else Ok tt.

(** *** sun_pos *)

(** The dictionary [sun_pos] returns, one field per key. *)
Record ephemeris : Type := {
  longitude : val;
  ra : val;
  dec : val;
  app_long : val;
  obliq : val
}.

(** [ra[ra < 0.0] += 360.0] on an array, [ra = ra + 360.0] on a scalar. *)
Definition wrap_ra (r : float) : float :=
  if flt r (lit 0.0) then fadd r (lit 360.0) else r.

Definition sun_pos (date : date_arg float pytime)
    (is_julian since_2415020 : bool) : result ephemeris :=
  (* check the time input *)
  dd <- (if is_julian then
           match date with
           | Num v => if since_2415020 then Ok v else Ok (v - $2415020.0)
           | Time _ =>
               (* a string or datetime: [date - 2415020.0], or
                  [dd / 36525.0] when [dd = date], is a type error *)
               if since_2415020 then
                 Raise (TypeError "unsupported operand type(s) for /")
               else
                 Raise (TypeError "unsupported operand type(s) for -")
           end
         else
           if since_2415020 then Ok (Scalar (julian_day date))
           else Ok (Scalar (julian_day date) - $2415020.0)) ;;
  (* form time in Julian centuries from 1900.0 *)
  let t := dd / $36525.0 in
  (* form sun's mean longitude *)
  let l := ($279.6966780 + np.mod_ ($36000.7689250 * t) $360.00) * $3600.0 in
  (* equation of centre, Earth's mean anomaly ME *)
  let me := $358.4758440 + np.mod_ ($35999.049750 * t) $360.0 in
  let ellcor := ($6910.10 - $17.20 * t) * np.sin (np.deg2rad me) +
                $72.30 * np.sin (np.deg2rad ($2.0 * me)) in
  let l := l + ellcor in
  (* Venus perturbations, mean anomaly of Venus MV *)
  let mv := $212.603219 + np.mod_ ($58517.8038750 * t) $360.0 in
  let vencorr :=
    $4.80 * np.cos (np.deg2rad ($299.10170 + mv - me)) +
    $5.50 * np.cos (np.deg2rad ($148.31330 + $2.0 * mv - $2.0 * me)) +
    $2.50 * np.cos (np.deg2rad ($315.94330 + $2.0 * mv - $3.0 * me)) +
    $1.60 * np.cos (np.deg2rad ($345.25330 + $3.0 * mv - $4.0 * me)) +
    $1.00 * np.cos (np.deg2rad ($318.150 + $3.0 * mv - $5.0 * me)) in
  let l := l + vencorr in
  (* Jupiter perturbations, mean anomaly of Jupiter MJ *)
  let mj := $225.3283280 + np.mod_ ($3034.69202390 * t) $360.00 in
  let jupcorr :=
    $7.20 * np.cos (np.deg2rad ($179.53170 - mj + me)) +
    $2.60 * np.cos (np.deg2rad ($263.21670 - mj)) +
    $2.70 * np.cos (np.deg2rad ($87.14500 - $2.0 * mj + $2.0 * me)) +
    $1.60 * np.cos (np.deg2rad ($109.49330 - $2.0 * mj + me)) in
  let l := l + jupcorr in
  (* Moon perturbations, mean elongation of the Moon from the Sun D *)
  let d := $350.73768140 + np.mod_ ($445267.114220 * t) $360.0 in
  let mooncorr := $6.50 * np.sin (np.deg2rad d) in
  let l := l + mooncorr in
  let longterm := $6.40 * np.sin (np.deg2rad ($231.190 + $20.20 * t)) in
  let l := l + longterm in
  let l := np.mod_ (l + $2592000.0) $1296000.0 in
  let longmed := l / $3600.0 in
  (* aberration *)
  let l := l - $20.5 in
  (* nutation, longitude of the Moon's mean node OMEGA *)
  let omega := $259.1832750 - np.mod_ ($1934.1420080 * t) $360.0 in
  let l := l - $17.20 * np.sin (np.deg2rad omega) in
  (* true obliquity *)
  let oblt := $23.4522940 - $0.01301250 * t +
              ($9.20 * np.cos (np.deg2rad omega)) / $3600.0 in
  (* right ascension and declination *)
  let l := l / $3600.0 in
  let ra := np.rad2deg (np.arctan2 (np.sin (np.deg2rad l) * np.cos (np.deg2rad oblt))
                                   (np.cos (np.deg2rad l))) in
  let ra := match ra with
            | NDArray rs => NDArray (map wrap_ra rs)
            | Scalar r => if flt r (lit 0.0) then ra + $360.0 else ra
            end in
  let dec := np.rad2deg (np.arcsin (np.sin (np.deg2rad l) * np.sin (np.deg2rad oblt))) in
  Ok {| longitude := longmed; ra := ra; dec := dec; app_long := l; obliq := oblt |}.

(** *** pb0r *)

(** The dictionary [pb0r] means to return. *)
Record disk_geometry : Type := {
  b0 : val;
  rsun : val;
  l0 : val
}.

Definition stereo_message : string :=
  "STEREO solar P, B0 and semi-diameter calcution is not supported.".

(** The position angle of the pole as line 221 writes it, from the true
    obliquity, the apparent longitude and [arg] (all in degrees). *)
Definition position_angle (oblt appl arg : val) : val :=
  np.rad2deg
    (np.arctan (- np.tan (np.deg2rad oblt * np.cos (np.deg2rad appl))) +
     np.arctan (- $0.127220 * np.cos (np.deg2rad arg))).

(** Lines 202-223: the local [p]. *)
Definition pb0r_p (date : date_arg float pytime) : result val :=
  (* number of Julian days since 2415020.0 *)
  let de := Scalar (julian_day date) - $2415020.0 in
  (* get the longitude of the sun etc. *)
  sun_position <- sun_pos date false false ;;
  let longmed := longitude sun_position in
  let ra := ra sun_position in
  let dec := dec sun_position in
  let appl := app_long sun_position in
  let oblt := obliq sun_position in
  (* form the aberrated longitude *)
  let Lambda := longmed - ($20.50 / $3600.0) in
  (* form longitude of ascending node of sun's equator on ecliptic *)
  let node := $73.6666660 + ($50.250 / $3600.0) * ((de / $365.250) + $50.0) in
  let arg := Lambda - node in
  (* calculate P, the position angle of the pole *)
  Ok (position_angle oblt appl arg).

Definition pb0r (date : date_arg float pytime) (stereo : bool)
    : result disk_geometry :=
  if stereo then Raise (ValueError stereo_message)
  else
    p <- pb0r_p date ;;
    (* [return {"b0": b0, "rsun": rsun, "l0": l0}]: none of the three names
       is assigned in the function or the module *)
    Raise (NameError "b0").

End Program.

(** ** The exact instance: floats read as real numbers

    Every primitive is the mathematical function its documentation names:
    arithmetic is exact, [np.mod] is the floored remainder, [np.round] and
    the microsecond resolution of [timedelta] round half to even.  A
    [timedelta] and a [datetime] are integer numbers of microseconds. *)

Module Exact.

Local Open Scope R_scope.

(** Round half to even, to an integer ([np.rint]). *)
Definition rint (x : R) : Z :=
  let n := Zfloor x in
  let r := x - IZR n in
  if Rlt_dec r (1 / 2) then n
  else if Rlt_dec (1 / 2) r then (n + 1)%Z
  else if Z.even n then n else (n + 1)%Z.

Definition round (x : R) (decimals : Z) : R :=
  IZR (rint (x * powerRZ 10 decimals)) / powerRZ 10 decimals.

Definition mod_ (x m : R) : R := x - m * IZR (Zfloor (x / m)).

Definition arctan2 (y x : R) : R :=
  if Rlt_dec 0 x then atan (y / x)
  else if Rlt_dec x 0 then
    if Rlt_dec y 0 then atan (y / x) - PI else atan (y / x) + PI
  else if Rlt_dec 0 y then PI / 2
  else if Rlt_dec y 0 then - (PI / 2)
  else 0.

Definition ltb (x y : R) : bool := if Rlt_dec x y then true else false.

(** [timedelta.min] and [timedelta.max] in microseconds: -999999999 days and
    999999999 days, 23:59:59.999999. *)
Definition timedelta_min : Z := (-86399999913600000000)%Z.
Definition timedelta_max : Z := 86399999999999999999%Z.

Definition make_timedelta (microseconds : R) : result Z :=
  let us := rint microseconds in
  if ((timedelta_min <=? us) && (us <=? timedelta_max))%Z then Ok us
  else Raise (OverflowError "days out of range for timedelta").

(** Calendar values are taken already parsed, as microseconds since
    0001-01-01 (Julian day 1721425.5); a number is seconds since 1979-01-01
    (Julian day 2443874.5). *)
Definition julian_day (date : date_arg R Z) : R :=
  match date with
  | Time c => 1721425.5 + IZR c / 86400000000
  | Num (Scalar s) => 2443874.5 + s / 86400
  | Num (NDArray _) => 0
  end.

(** 1899-12-31 12:00:00, the instant of Julian day 2415020.0. *)
Definition epoch : date_arg R Z := Time 59926564800000000%Z.

End Exact.

#[export] Instance RealRuntime : Runtime := {|
  float := R;
  lit := Q2R;
  fadd := Rplus;
  fsub := Rminus;
  fmul := Rmult;
  fdiv := Rdiv;
  fneg := Ropp;
  fpow := powerRZ;
  flt := Exact.ltb;
  np_sin := Rtrigo_def.sin;
  np_cos := Rtrigo_def.cos;
  np_tan := Rtrigo1.tan;
  np_arctan := atan;
  np_arcsin := asin;
  np_arctan2 := Exact.arctan2;
  np_mod := Exact.mod_;
  np_deg2rad := fun x => (x * (PI / 180))%R;
  np_rad2deg := fun x => (x * (180 / PI))%R;
  np_round := Exact.round;
  timedelta := Z;
  timedelta_days := fun d => Exact.make_timedelta (d * 86400000000)%R;
  timedelta_seconds := fun s => Exact.make_timedelta (s * 1000000)%R;
  total_seconds := fun td => (IZR td / 1000000)%R;
  datetime := Z;
  datetime_sub := Z.sub;
  pytime := Z;
  parse_time := fun c => c;
  julian_day := Exact.julian_day
|}.

(** ** Definitions that follow the specification's words *)

Section Spec.

Context {RT : Runtime}.

Local Open Scope string_scope.
Local Open Scope np_scope.

Definition profiles : list string := ["howard"; "snodgrass"; "allen"].
Definition frames : list string := ["sidereal"; "synodic"].

(** The position angle as the specification writes it:
    [rad2deg(atan(-tan(obliq) * cos(app_long)) + atan(-0.12722 * cos(arg)))],
    every trigonometric argument converted from degrees. *)
Definition spec_position_angle (oblt appl arg : value float) : value float :=
  np.rad2deg
    (np.arctan (- np.tan (np.deg2rad oblt) * np.cos (np.deg2rad appl)) +
     np.arctan (- pyfloat 0.12722 * np.cos (np.deg2rad arg))).

(** [arg] as the specification writes it, from the mean longitude and the
    Julian day (the literals keep the digits of the source). *)
Definition spec_arg (longitude jd : value float) : value float :=
  let de := jd - pyfloat 2415020.0 in
  (longitude - pyfloat 20.50 / pyfloat 3600.0) -
  (pyfloat 73.6666660 +
   (pyfloat 50.250 / pyfloat 3600.0) * (de / pyfloat 365.250 + pyfloat 50.0)).

(** The time keywords form a complete start+end or start+interval pair. *)
Definition complete_pair (kwargs : time_kwargs) : Prop :=
  (tstart kwargs <> None /\ tend kwargs <> None) \/
  (tstart kwargs <> None /\ interval kwargs <> None).

End Spec.

(** ** Properties that hold for every implementation of the primitives *)

Section Structural.

Context {RT : Runtime}.

Local Open Scope string_scope.
Local Open Scope np_scope.

(** *** Elementwise reasoning *)

Lemma all_lift1 (P Q : float -> Prop) (f : float -> float) (v : value float) :
  (forall x, Q x -> P (f x)) ->
  all_elements Q v -> all_elements P (np.lift1 f v).
Proof.
  intros Hf. unfold all_elements. destruct v as [x | xs]; cbn.
  - intro H. inversion H; subst. constructor; auto.
  - induction xs as [| x xs IH]; cbn; intro H; inversion H; subst;
      constructor; auto.
Qed.



Lemma zip_with_map (f : float -> float -> float) (g h : float -> float)
    (xs : list float) :
  np.zip_with f (map g xs) (map h xs) = map (fun x => f (g x) (h x)) xs.
Proof.
  induction xs as [| x xs IH]; cbn; [reflexivity | now rewrite IH].
Qed.

(** *** diff_rot *)

Lemma in_list_In (name : string) (names : list string) :
  in_list name names = true <-> In name names.
Proof.
  unfold in_list. rewrite existsb_exists. split.
  - intros [x [Hin Heq]]. apply String.eqb_eq in Heq. subst. assumption.
  - intros Hin. exists name. split; [assumption | apply String.eqb_refl].
Qed.

Lemma in_list_false (name : string) (names : list string) :
  ~ In name names -> in_list name names = false.
Proof.
  intro H. destruct (in_list name names) eqn:E; [| reflexivity].
  apply in_list_In in E. contradiction.
Qed.

Lemma profile_cases (p : string) :
  In p profiles -> p = "howard" \/ p = "snodgrass" \/ p = "allen".
Proof. simpl. intuition auto. Qed.

(** A known profile always has a rotation value. *)
Lemma rotation_deg_known (p : string) (s d s2 s4 : value float) :
  In p profiles -> exists r, rotation_deg p s d s2 s4 = Ok r.
Proof.
  intro H. apply profile_cases in H.
  destruct H as [-> | [-> | ->]]; eexists; reflexivity.
Qed.

Lemma rotation_deg_unknown (p : string) (s d s2 s4 : value float) :
  ~ In p profiles -> rotation_deg p s d s2 s4 = Raise (ValueError rot_type_message).
Proof.
  intro H. unfold rotation_deg.
  rewrite in_list_false; [reflexivity |].
  intro Hin. apply H. simpl in *. intuition auto.
Qed.

(** The result has the shape of the latitude: the arrays that meet in
    [rotation_deg] all derive from it. *)
Lemma diff_rot_shape (ddays : duration) (latitude : value float)
    (rot_type frame_time : string) (v : value float) :
  diff_rot ddays latitude rot_type frame_time = Ok v ->
  np.shape v = np.shape latitude.
Proof.
  unfold diff_rot. destruct ddays as [d | td]; [| discriminate].
  destruct (timedelta_days d) as [td | e]; [| discriminate].
  cbn [bind load_local]. unfold rotation_deg.
  destruct (negb (in_list rot_type _)); [discriminate |].
  destruct (String.eqb rot_type "allen").
  - cbn [bind]. intro H. injection H as <-.
    destruct latitude, (String.eqb frame_time "synodic"); cbn;
      rewrite ?length_map; reflexivity.
  - cbn [getitem rot_params].
    destruct (String.eqb rot_type "howard");
      [| destruct (String.eqb rot_type "snodgrass"); [| discriminate]];
      cbn [bind]; intro H; injection H as <-;
      destruct latitude, (String.eqb frame_time "synodic"); cbn;
      rewrite ?map_map, ?zip_with_map, ?length_map; reflexivity.
Qed.

(** C10.  A [timedelta] duration never yields a result: [delta] is bound
    only when [ddays] is not a [timedelta], so reading it on line 63 raises
    the unbound-local error, whatever the other arguments. *)
Theorem diff_rot_timedelta_unbound :
  forall (td : timedelta) (latitude : value float) (rot_type frame_time : string),
    diff_rot (Delta td) latitude rot_type frame_time
    = Raise (UnboundLocalError "delta").
Proof. intros. reflexivity. Qed.

(** C4.  For a numeric duration that [timedelta] accepts and a known
    profile, the sidereal result is the rounded rotation value and the
    synodic result is that same value minus 0.9856 degrees per elapsed day,
    rounded to 4 decimals afterwards. *)
Theorem diff_rot_synodic_correction :
  forall (d : float) (td : timedelta) (latitude : value float) (rot_type : string),
    timedelta_days d = Ok td ->
    In rot_type profiles ->
    let delta_seconds := Scalar (total_seconds td) in
    let delta_days := delta_seconds / pyfloat 24 / pyfloat 3600 in
    let sin2l := (np.sin (np.deg2rad latitude)) ** 2 in
    exists sidereal : value float,
      rotation_deg rot_type delta_seconds delta_days sin2l (sin2l ** 2) = Ok sidereal /\
      diff_rot (Days d) latitude rot_type "sidereal" = Ok (np.round sidereal 4) /\
      diff_rot (Days d) latitude rot_type "synodic"
      = Ok (np.round (sidereal - pyfloat 0.9856 * delta_days) 4).
Proof.
  intros d td latitude rot_type Htd Hp delta_seconds delta_days sin2l.
  destruct (rotation_deg_known delta_seconds delta_days sin2l (sin2l ** 2) Hp)
    as [r Hr].
  exists r. split; [exact Hr |].
  unfold diff_rot. rewrite Htd. cbn [bind load_local].
  fold delta_seconds. fold delta_days. fold sin2l.
  rewrite Hr. cbn [bind]. split; reflexivity.
Qed.

(** *** sun_pos *)

(** C8.  Passing the Julian day of a date with [is_julian=True] gives the
    very record that passing the date itself gives. *)
Theorem sun_pos_julian_equivalence :
  forall date : date_arg float pytime,
    sun_pos (Num (Scalar (julian_day date))) true false
    = sun_pos date false false.
Proof. intros. reflexivity. Qed.

(** Without [is_julian], [sun_pos] always returns a record. *)
Lemma sun_pos_calendar_returns (date : date_arg float pytime) (since : bool) :
  exists e, sun_pos date false since = Ok e.
Proof. destruct since; eexists; reflexivity. Qed.

(** With [is_julian], a number or an array of numbers gives a record. *)
Lemma sun_pos_number_returns (v : value float) (since : bool) :
  exists e, sun_pos (Num v) true since = Ok e.
Proof. destruct since; eexists; reflexivity. Qed.

(** *** diff_rot: argument validation and symmetry *)

(** C1 (amended).  For a numeric duration that [timedelta] accepts, a
    profile outside the three known ones raises the [ValueError] of line 74;
    the duration is converted first, so a duration [timedelta] rejects raises
    that error instead; and the frame is never validated: every frame other
    than ["synodic"] behaves as ["sidereal"]. *)
Theorem diff_rot_argument_validation :
  (forall (d : float) (td : timedelta) (latitude : value float)
          (rot_type frame_time : string),
      timedelta_days d = Ok td ->
      ~ In rot_type profiles ->
      diff_rot (Days d) latitude rot_type frame_time
      = Raise (ValueError rot_type_message)) /\
  (forall (d : float) (e : exn) (latitude : value float)
          (rot_type frame_time : string),
      timedelta_days d = Raise e ->
      diff_rot (Days d) latitude rot_type frame_time = Raise e) /\
  (forall (ddays : duration) (latitude : value float)
          (rot_type frame_time : string),
      frame_time <> "synodic" ->
      diff_rot ddays latitude rot_type frame_time
      = diff_rot ddays latitude rot_type "sidereal").
Proof.
  split; [| split].
  - intros d td latitude rot_type frame_time Htd Hp.
    unfold diff_rot. rewrite Htd. cbn [bind load_local].
    rewrite rotation_deg_unknown by assumption. reflexivity.
  - intros d e latitude rot_type frame_time Htd.
    unfold diff_rot. rewrite Htd. reflexivity.
  - intros ddays latitude rot_type frame_time Hf.
    unfold diff_rot.
    apply String.eqb_neq in Hf. rewrite Hf. reflexivity.
Qed.

(** C6.  The result depends on the latitude only through
    [sin(deg2rad(latitude)) ** 2]: when negation commutes with [deg2rad] and
    [sin] and is absorbed by the square (as it is for IEEE doubles with an
    odd [sin], and for real numbers), [diff_rot] gives the same outcome at
    [-latitude] and at [latitude], for every duration, profile and frame. *)
Theorem diff_rot_latitude_even :
  (forall x, np_deg2rad (fneg x) = fneg (np_deg2rad x)) ->
  (forall x, np_sin (fneg x) = fneg (np_sin x)) ->
  (forall x, fpow (fneg x) 2 = fpow x 2) ->
  forall (ddays : duration) (latitude : value float)
         (rot_type frame_time : string),
    diff_rot ddays (- latitude) rot_type frame_time
    = diff_rot ddays latitude rot_type frame_time.
Proof.
  intros Hdeg Hsin Hsq ddays latitude rot_type frame_time.
  assert (Hs : (np.sin (np.deg2rad (- latitude))) ** 2
               = (np.sin (np.deg2rad latitude)) ** 2).
  { destruct latitude as [x | xs]; cbn.
    - now rewrite Hdeg, Hsin, Hsq.
    - f_equal. rewrite !map_map. apply map_ext.
      intro x. now rewrite Hdeg, Hsin, Hsq. }
  unfold diff_rot. rewrite Hs. reflexivity.
Qed.

(** *** pb0r *)

(** What [pb0r] computes for [p]: the record of [sun_pos] at the date, [arg]
    as the specification writes it, and the expression of line 221, in which
    the tangent is taken of the product [deg2rad(oblt) * cos(deg2rad(appl))]. *)
Lemma pb0r_p_value (date : date_arg float pytime) :
  exists e : ephemeris,
    sun_pos date false false = Ok e /\
    pb0r_p date
    = Ok (position_angle (obliq e) (app_long e)
            (spec_arg (longitude e) (Scalar (julian_day date)))).
Proof. eexists. split; reflexivity. Qed.

(** C3.  With [stereo] not requested [pb0r] never returns a record: for
    every date the [return] statement reads the unbound name [b0]. *)
Theorem pb0r_raises_name_error :
  forall date : date_arg float pytime,
    pb0r date false = Raise (NameError "b0").
Proof. intros. reflexivity. Qed.

(** *** rot_xy *)

Lemma shape_neq_same (s1 s2 : list nat) : s1 = s2 -> shape_neq s1 s2 = false.
Proof.
  intro H. unfold shape_neq.
  destruct (list_eq_dec Nat.eq_dec s1 s2); [reflexivity | contradiction].
Qed.

(** The [if] that closes [rot_xy], once [delta] is known. *)
Lemma rotate_step_outcome (td : timedelta) :
  let r := if flt (lit 0.0) (total_seconds td)
           then Raise (NameError "rsun") else Ok tt in
  r = Raise (NameError "rsun") \/ r = Ok tt.
Proof. cbv zeta. destruct (flt _ _); [left | right]; reflexivity. Qed.

(** C9 (amended).  For co-ordinates of the same shape and an [interval]
    that [timedelta] accepts, [rot_xy] raises the time-specification error
    exactly when [tstart] is absent and [tend] or [interval] is absent too.
    With [tstart] alone ([tend] then defaults to the current time), or with
    [tend] and [interval] but no [tstart], the check passes and the call goes
    on to the rotation step. *)
Theorem rot_xy_time_check :
  forall (x y : value float) (date : pytime) (now : datetime)
         (kwargs : time_kwargs),
    np.shape x = np.shape y ->
    (forall s, interval kwargs = Some (IntervalSeconds s) ->
               exists td, timedelta_seconds s = Ok td) ->
    (tstart kwargs = None /\ (tend kwargs = None \/ interval kwargs = None) ->
     rot_xy x y date now kwargs = Raise (ValueError time_message)) /\
    (tstart kwargs <> None \/ (tend kwargs <> None /\ interval kwargs <> None) ->
     rot_xy x y date now kwargs = Raise (NameError "rsun") \/
     rot_xy x y date now kwargs = Ok tt).
Proof.
  intros x y date now [ts te iv] Hshape Hconv. cbn [tstart tend interval] in *.
  unfold rot_xy. rewrite (shape_neq_same Hshape). cbn [tstart tend interval].
  split.
  - intros [-> Hmiss]. destruct Hmiss as [-> | ->].
    + destruct iv as [[td | s] |]; cbn; try reflexivity.
      destruct (Hconv s eq_refl) as [td ->]. reflexivity.
    + destruct te; reflexivity.
  - intros Hgiven.
    destruct iv as [[td | s] |].
    + destruct ts, te; cbn [bind is_none andb orb load_local];
        try apply rotate_step_outcome.
      destruct Hgiven as [H | [H _]]; contradiction.
    + destruct (Hconv s eq_refl) as [td ->].
      destruct ts, te; cbn [bind is_none andb orb load_local];
        try apply rotate_step_outcome.
      destruct Hgiven as [H | [H _]]; contradiction.
    + destruct ts; cbn [bind is_none andb orb load_local].
      * apply rotate_step_outcome.
      * destruct Hgiven as [H | [_ H]]; contradiction.
Qed.

End Structural.

(** ** Properties at the exact instance *)

Section ExactProperties.

Local Open Scope string_scope.
Local Open Scope R_scope.

(** *** Rounding and timedelta *)

Lemma rint_IZR (n : Z) : Exact.rint (IZR n) = n.
Proof.
  unfold Exact.rint.
  assert (Hn : Zfloor (IZR n) = n) by (apply Zfloor_eq; lra).
  rewrite Hn. destruct (Rlt_dec (IZR n - IZR n) (1 / 2)) as [_ | H];
    [reflexivity | exfalso; apply H; lra].
Qed.

Lemma round_zero (decimals : Z) : Exact.round 0 decimals = 0.
Proof.
  unfold Exact.round. rewrite Rmult_0_l. rewrite (rint_IZR 0).
  unfold Rdiv. apply Rmult_0_l.
Qed.

Lemma make_timedelta_IZR (n : Z) :
  (Exact.timedelta_min <= n <= Exact.timedelta_max)%Z ->
  Exact.make_timedelta (IZR n) = Ok n.
Proof.
  intros [Hlo Hhi]. unfold Exact.make_timedelta. rewrite rint_IZR.
  apply Z.leb_le in Hlo. apply Z.leb_le in Hhi. now rewrite Hlo, Hhi.
Qed.

(** [timedelta(days=n)] for a whole number of days within range. *)
Lemma timedelta_days_whole (n : Z) :
  (-999999999 <= n <= 999999999)%Z ->
  timedelta_days (Runtime := RealRuntime) (IZR n) = Ok (n * 86400000000)%Z.
Proof.
  intro H. cbn [timedelta_days RealRuntime].
  replace (IZR n * 86400000000) with (IZR (n * 86400000000))
    by (rewrite mult_IZR; reflexivity).
  apply make_timedelta_IZR. unfold Exact.timedelta_min, Exact.timedelta_max. lia.
Qed.

Lemma ltb_false (x y : R) : y <= x -> Exact.ltb x y = false.
Proof.
  intro H. unfold Exact.ltb. destruct (Rlt_dec x y); [lra | reflexivity].
Qed.

Lemma timedelta_days_overflow (n : Z) :
  (999999999 < n)%Z ->
  timedelta_days (Runtime := RealRuntime) (IZR n)
  = Raise (OverflowError "days out of range for timedelta").
Proof.
  intro H. cbn [timedelta_days RealRuntime].
  replace (IZR n * 86400000000) with (IZR (n * 86400000000))
    by (rewrite mult_IZR; reflexivity).
  unfold Exact.make_timedelta. rewrite rint_IZR.
  replace (n * 86400000000 <=? Exact.timedelta_max)%Z with false.
  - now rewrite andb_false_r.
  - symmetry. apply Z.leb_gt. unfold Exact.timedelta_max. lia.
Qed.

Lemma real_deg2rad_opp (x : R) :
  np_deg2rad (Runtime := RealRuntime) (fneg x) = fneg (np_deg2rad x).
Proof. change (@eq R (- x * (PI / 180)) (- (x * (PI / 180)))). ring. Qed.

Lemma real_sin_opp (x : R) :
  np_sin (Runtime := RealRuntime) (fneg x) = fneg (np_sin x).
Proof. exact (sin_neg x). Qed.

Lemma real_square_opp (x : R) :
  fpow (Runtime := RealRuntime) (fneg x) 2 = fpow x 2.
Proof. change (@eq R (- x * (- x * 1)) (x * (x * 1))). ring. Qed.

(** *** diff_rot at concrete arguments *)

(** Counterexample to C1 as stated: a frame outside {sidereal, synodic} is
    accepted, [diff_rot(1, 30, 'howard', 'bogus')] returns a value. *)
Lemma diff_rot_unknown_frame_accepted :
  ~ In "bogus" frames /\
  exists v : value R,
    diff_rot (RT := RealRuntime) (Days 1) (Scalar 30) "howard" "bogus" = Ok v.
Proof.
  split.
  - cbn. intuition discriminate.
  - unfold diff_rot. rewrite (timedelta_days_whole (n := 1)) by lia.
    eexists. reflexivity.
Qed.

(** The three parts of the validation behaviour at concrete calls: an
    unknown profile, a duration beyond [timedelta.max], an unknown frame. *)
Lemma diff_rot_argument_validation_witness :
  diff_rot (RT := RealRuntime) (Days 1) (Scalar 30) "bogus" "sidereal"
  = Raise (ValueError rot_type_message) /\
  diff_rot (RT := RealRuntime) (Days 10000000000) (Scalar 30) "bogus" "sidereal"
  = Raise (OverflowError "days out of range for timedelta") /\
  diff_rot (RT := RealRuntime) (Days 1) (Scalar 30) "howard" "bogus"
  = diff_rot (RT := RealRuntime) (Days 1) (Scalar 30) "howard" "sidereal".
Proof.
  destruct (diff_rot_argument_validation (RT := RealRuntime)) as [H1 [H2 H3]].
  split; [| split].
  - apply (H1 1 86400000000%Z).
    + apply (timedelta_days_whole (n := 1)). lia.
    + cbn. intuition discriminate.
  - apply H2. apply (timedelta_days_overflow (n := 10000000000)). lia.
  - apply H3. discriminate.
Defined.

(** Fourteen days at the equator under the profile of Howard. *)
Lemma diff_rot_synodic_correction_witness :
  timedelta_days (Runtime := RealRuntime) 14 = Ok 1209600000000%Z /\
  In "howard" profiles /\
  exists sidereal : value R,
    diff_rot (RT := RealRuntime) (Days 14) (Scalar 0) "howard" "sidereal"
    = Ok (np.round sidereal 4) /\
    diff_rot (RT := RealRuntime) (Days 14) (Scalar 0) "howard" "synodic"
    = Ok (np.round
            (np.sub sidereal
               (np.mul (pyfloat 0.9856)
                  (np.div (np.div (Scalar (total_seconds 1209600000000%Z))
                             (pyfloat 24)) (pyfloat 3600)))) 4).
Proof.
  assert (Htd : timedelta_days (Runtime := RealRuntime) 14 = Ok 1209600000000%Z)
    by (apply (timedelta_days_whole (n := 14)); lia).
  assert (Hp : In "howard" profiles) by (cbn; auto).
  split; [exact Htd | split; [exact Hp |]].
  destruct (diff_rot_synodic_correction (RT := RealRuntime) 14 (Scalar 0) Htd Hp)
    as [r [_ [Hs Hy]]].
  exists r. split; [exact Hs | exact Hy].
Defined.

(** The exact instance satisfies the three laws: 30 degrees north and south. *)
Lemma diff_rot_latitude_even_witness :
  diff_rot (RT := RealRuntime) (Days 2) (np.neg (Scalar 30)) "snodgrass" "synodic"
  = diff_rot (RT := RealRuntime) (Days 2) (Scalar 30) "snodgrass" "synodic".
Proof.
  apply (diff_rot_latitude_even (RT := RealRuntime)
           real_deg2rad_opp real_sin_opp real_square_opp).
Defined.

(** *** rot_xy at concrete arguments *)

(** Counterexample to C9 as stated: [tstart] alone is neither a start+end
    nor a start+interval pair, yet [rot_xy] does not raise; with the clock at
    [tstart] it returns [None]. *)
Lemma rot_xy_tstart_alone_accepted :
  ~ complete_pair (@Build_time_kwargs RealRuntime (Some 0%Z) None None) /\
  rot_xy (RT := RealRuntime) (Scalar 0) (Scalar 0) 0%Z 0%Z
    (@Build_time_kwargs RealRuntime (Some 0%Z) None None)
  = Ok tt.
Proof.
  split.
  - unfold complete_pair. cbn. intuition congruence.
  - unfold rot_xy. rewrite shape_neq_same by reflexivity.
    cbn [tstart tend interval bind is_none andb orb load_local].
    cbn [flt total_seconds lit datetime_sub parse_time RealRuntime].
    rewrite ltb_false; [reflexivity |].
    unfold Q2R. cbn. lra.
Qed.

(** [tend] alone raises; [tstart] with [tend] passes the check. *)
Lemma rot_xy_time_check_witness :
  rot_xy (RT := RealRuntime) (Scalar 0) (Scalar 0) 0%Z 0%Z
    (@Build_time_kwargs RealRuntime None (Some 5%Z) None)
  = Raise (ValueError time_message) /\
  (rot_xy (RT := RealRuntime) (Scalar 0) (Scalar 0) 0%Z 0%Z
     (@Build_time_kwargs RealRuntime (Some 0%Z) (Some 5%Z) None)
   = Raise (NameError "rsun") \/
   rot_xy (RT := RealRuntime) (Scalar 0) (Scalar 0) 0%Z 0%Z
     (@Build_time_kwargs RealRuntime (Some 0%Z) (Some 5%Z) None)
   = Ok tt).
Proof.
  split.
  - apply (proj1 (rot_xy_time_check (RT := RealRuntime) (Scalar 0) (Scalar 0)
                    0%Z 0%Z (@Build_time_kwargs RealRuntime None (Some 5%Z) None)
                    eq_refl ltac:(cbn; discriminate))).
    cbn. auto.
  - apply (proj2 (rot_xy_time_check (RT := RealRuntime) (Scalar 0) (Scalar 0)
                    0%Z 0%Z (@Build_time_kwargs RealRuntime (Some 0%Z) (Some 5%Z) None)
                    eq_refl ltac:(cbn; discriminate))).
    cbn. left. discriminate.
Defined.

(** *** Zero duration *)




(** One day at the equator under the profile of Allen: 14.44 degrees. *)
Example diff_rot_allen_equator :
  diff_rot (RT := RealRuntime) (Days 1) (Scalar 0) "allen" "sidereal"
  = Ok (Scalar 14.44).
Proof.
  unfold diff_rot. rewrite (timedelta_days_whole (n := 1)) by lia.
  cbn -[Q2R Rmult Rplus Rminus Rdiv Ropp IZR powerRZ PI Exact.round
        Rtrigo_def.sin].
  do 2 f_equal. unfold Exact.round.
  rewrite Rmult_0_l, sin_0.
  change (powerRZ 0 2) with (0 * (0 * 1)).
  change (powerRZ 10 4) with (10 * (10 * (10 * (10 * 1)))).
  replace (_ * (10 * (10 * (10 * (10 * 1))))) with (IZR 144400)
    by (unfold Q2R; cbn [Qnum Qden]; lra).
  rewrite rint_IZR. lra.
Qed.

(** *** Right ascension *)











(** *** The position angle at the epoch 1900.0 *)

Lemma mod_zero (m : R) : Exact.mod_ 0 m = 0.
Proof.
  unfold Exact.mod_. unfold Rdiv. rewrite Rmult_0_l.
  rewrite (Zfloor_eq 0 0) by lra. lra.
Qed.

Lemma mod_third_period (x m : R) :
  0 < m -> 2 * m <= x < 3 * m -> Exact.mod_ x m = x - 2 * m.
Proof.
  intros Hm [Hlo Hhi]. unfold Exact.mod_.
  rewrite (Zfloor_eq 2 (x / m)); [lra |].
  split.
  - apply Rmult_le_reg_r with m; [lra |]. unfold Rdiv. rewrite Rmult_assoc, Rinv_l by lra. lra.
  - apply Rmult_lt_reg_r with m; [lra |]. unfold Rdiv. rewrite Rmult_assoc, Rinv_l by lra. lra.
Qed.

Lemma epoch_jd : Exact.julian_day Exact.epoch = 2415020.
Proof. unfold Exact.epoch, Exact.julian_day. lra. Qed.

Ltac bound_trig :=
  repeat match goal with
         | |- context [Rtrigo_def.sin ?x] =>
             let H := fresh "Hs" in
             pose proof (SIN_bound x) as H;
             generalize dependent (Rtrigo_def.sin x); intros
         | |- context [Rtrigo_def.cos ?x] =>
             let H := fresh "Hc" in
             pose proof (COS_bound x) as H;
             generalize dependent (Rtrigo_def.cos x); intros
         end.

(** At the epoch the time argument [t] is 0: the mean longitude is within
    two degrees of 279.7 and the obliquity within a hundredth of 23.45. *)
Lemma sun_pos_epoch :
  exists e : ephemeris,
    sun_pos (RT := RealRuntime) Exact.epoch false false = Ok e /\
    exists lon ap ob : R,
      longitude e = Scalar lon /\ app_long e = Scalar ap /\ obliq e = Scalar ob /\
      277 < ap < 282 /\ 23 < ob < 24.
Proof.
  eexists. split; [reflexivity |].
  do 3 eexists. split; [reflexivity |]. split; [reflexivity |]. split; [reflexivity |].
  cbn -[Q2R Rmult Rplus Rminus Rdiv Ropp IZR powerRZ PI Exact.round
        Exact.mod_ Exact.julian_day Exact.arctan2 Exact.ltb
        Rtrigo_def.sin Rtrigo_def.cos atan asin Exact.epoch].
  rewrite epoch_jd.
  replace ((2415020 - Q2R 2415020.0) / Q2R 36525.0) with 0
    by (unfold Q2R; cbn; field).
  rewrite !Rmult_0_r, !mod_zero.
  bound_trig.
  match goal with
  | |- context [Exact.mod_ ?x ?m] =>
      rewrite (@mod_third_period x m)
  end.
  all: unfold Q2R; cbn [Qnum Qden]. 
  all: lra.
Qed.

Lemma tan_derivative (x : R) :
  - PI / 2 < x < PI / 2 -> derivable_pt_lim tan x (1 + tan x ^ 2).
Proof.
  intro Hx. rewrite <- (derive_pt_tan x Hx).
  apply derive_pt_eq_1 with (pr := derivable_pt_tan x Hx). reflexivity.
Qed.

(** The tangent is strictly convex on (0, PI/2): it lies below its chord
    from the origin. *)
Lemma tan_below_chord (a c : R) :
  0 < a < PI / 2 -> 0 < c < 1 -> tan (a * c) < c * tan a.
Proof.
  intros [Ha0 Ha1] [Hc0 Hc1].
  assert (Hac0 : 0 < a * c) by nra.
  assert (Hac1 : a * c < a) by nra.
  destruct (MVT_cor2 tan (fun x => 1 + tan x ^ 2) 0 (a * c) Hac0)
    as [x1 [E1 [Hx1 Hx1']]].
  { intros x Hx. apply tan_derivative. lra. }
  destruct (MVT_cor2 tan (fun x => 1 + tan x ^ 2) (a * c) a Hac1)
    as [x2 [E2 [Hx2 Hx2']]].
  { intros x Hx. apply tan_derivative. lra. }
  rewrite tan_0 in E1.
  assert (T1 : 0 < tan x1) by (apply tan_gt_0; lra).
  assert (T2 : tan x1 < tan x2) by (apply tan_increasing; lra).
  set (u := 1 + tan x1 ^ 2) in *. set (v := 1 + tan x2 ^ 2) in *.
  assert (Huv : 0 < u < v) by (unfold u, v; nra).
  assert (Hd : 0 < a * (1 - c)) by nra.
  assert (E3 : tan a = u * (a * c) + v * (a * (1 - c))) by lra.
  assert (E4 : tan (a * c) = u * (a * c)) by lra.
  rewrite E3, E4.
  assert (u * (a * c) * (1 - c) < c * (v * (a * (1 - c)))); [| nra].
  assert (u * (a * c) < v * (a * c)) by (apply Rmult_lt_compat_r; lra).
  nra.
Qed.

Lemma cos_fourth_quadrant (y : R) :
  3 * (PI / 2) < y < 2 * PI -> 0 < cos y < 1.
Proof.
  intros [Hlo Hhi]. pose proof PI_RGT_0 as Hpi.
  set (w := y - 2 * PI).
  assert (E : cos y = cos w).
  { rewrite <- (cos_period w 1). f_equal. unfold w. simpl. ring. }
  rewrite E.
  assert (Hc : 0 < cos w) by (apply cos_gt_0; unfold w; lra).
  assert (Hs : sin w < 0) by (apply sin_lt_0_var; unfold w; lra).
  pose proof (sin2_cos2 w) as Hsq. unfold Rsqr in Hsq.
  split; [exact Hc | nra].
Qed.

Lemma atan_inj (x y : R) : atan x = atan y -> x = y.
Proof. intro H. rewrite <- (tan_atan x), <- (tan_atan y). now rewrite H. Qed.

Lemma position_angles_differ (ob ap x y : R) :
  23 < ob < 24 -> 277 < ap < 282 -> x = y ->
  (atan (- tan (ob * (PI / 180) * cos (ap * (PI / 180)))) + atan x) * (180 / PI)
  <> (atan (- tan (ob * (PI / 180)) * cos (ap * (PI / 180))) + atan y) * (180 / PI).
Proof.
  intros Hob Hap -> H. pose proof PI_RGT_0 as Hpi.
  assert (Hk : 180 / PI <> 0).
  { apply Rgt_not_eq. apply Rdiv_lt_0_compat; lra. }
  apply Rmult_eq_reg_r in H; [| exact Hk].
  apply Rplus_eq_reg_r in H. apply atan_inj in H.
  assert (Ha : 0 < ob * (PI / 180) < PI / 2) by (split; nra).
  assert (Hc : 0 < cos (ap * (PI / 180)) < 1)
    by (apply cos_fourth_quadrant; split; nra).
  pose proof (@tan_below_chord _ _ Ha Hc). lra.
Qed.

(** C2.  The position angle [pb0r] computes is not the claimed
    [rad2deg(atan(-tan(obliq) * cos(app_long)) + atan(-0.12722 * cos(arg)))]:
    line 222 takes the tangent of the product
    [deg2rad(oblt) * cos(deg2rad(appl))].  At the exact instance and the date
    1899-12-31 12:00 the two values differ ([arg] is as claimed). *)
Theorem pb0r_position_angle_differs :
  exists e : ephemeris,
    sun_pos (RT := RealRuntime) Exact.epoch false false = Ok e /\
    pb0r_p (RT := RealRuntime) Exact.epoch
    <> Ok (spec_position_angle (obliq e) (app_long e)
             (spec_arg (longitude e) (Scalar (julian_day Exact.epoch)))).
Proof.
  destruct sun_pos_epoch as [e [He [lon [ap [ob [Hlon [Hap [Hob [Bap Bob]]]]]]]]].
  exists e. split; [exact He |].
  destruct (pb0r_p_value (RT := RealRuntime) Exact.epoch) as [e' [He' Hp]].
  rewrite He in He'. injection He' as <-.
  rewrite Hp, Hlon, Hap, Hob.
  intro H. injection H as H. revert H.
  apply position_angles_differ; [exact Bob | exact Bap |].
  f_equal. f_equal. unfold Q2R. cbn [Qnum Qden]. lra.
Qed.

End ExactProperties.

(** ** Further properties, for every implementation of the primitives *)

Section FurtherStructural.

Context {RT : Runtime}.

Local Open Scope string_scope.
Local Open Scope np_scope.

Lemma all_lift2_scalar_r (P Q : float -> Prop)
    (f : float -> float -> float) (a : value float) (c : float) :
  (forall x, Q x -> P (f x c)) ->
  all_elements Q a -> all_elements P (np.lift2 f a (Scalar c)).
Proof.
  intro Hf. unfold all_elements. destruct a as [x | xs]; cbn.
  - intro H. inversion H; subst. constructor; auto.
  - intro H. induction H; cbn; constructor; auto.
Qed.

Lemma all_elements_trivial (v : value float) : all_elements (fun _ => True) v.
Proof. unfold all_elements. apply Forall_forall. auto. Qed.

(** *** diff_rot: which errors, and arrays *)

(** X1.  The only ways [diff_rot] fails. *)
Theorem diff_rot_errors :
  forall (ddays : duration) (latitude : value float)
         (rot_type frame_time : string) (e : exn),
    diff_rot ddays latitude rot_type frame_time = Raise e ->
    (exists td, ddays = Delta td /\ e = UnboundLocalError "delta") \/
    (exists d, ddays = Days d /\ timedelta_days d = Raise e) \/
    (exists d td, ddays = Days d /\ timedelta_days d = Ok td /\
                  ~ In rot_type profiles /\ e = ValueError rot_type_message).
Proof.
  intros ddays latitude rot_type frame_time e H.
  destruct ddays as [d | td].
  - right. unfold diff_rot in H.
    destruct (timedelta_days d) as [td | e'] eqn:Htd.
    + right. exists d, td. cbn [bind load_local] in H.
      destruct (in_list rot_type ["howard"; "allen"; "snodgrass"]) eqn:Hin.
      * apply in_list_In in Hin.
        assert (Hp : In rot_type profiles) by (cbn in *; intuition auto).
        destruct (rotation_deg_known (Scalar (total_seconds td))
                    (np.div (np.div (Scalar (total_seconds td)) (pyfloat 24))
                       (pyfloat 3600))
                    (np.pow (np.sin (np.deg2rad latitude)) 2)
                    (np.pow (np.pow (np.sin (np.deg2rad latitude)) 2) 2) Hp)
          as [r Hr].
        rewrite Hr in H. discriminate.
      * assert (Hp : ~ In rot_type profiles).
        { intro Hp. 
          assert (Hp' : In rot_type ["howard"; "allen"; "snodgrass"])
            by (cbn in *; intuition auto).
          apply in_list_In in Hp'. congruence. }
        rewrite rotation_deg_unknown in H by assumption.
        cbn [bind] in H. injection H as <-. auto.
    + left. exists d. cbn [bind] in H. injection H as <-. auto.
  - left. exists td. cbn in H. injection H as <-. auto.
Qed.

(** X2.  An array of latitudes gives, position by position, what the scalar
    call gives. *)
Theorem diff_rot_elementwise :
  forall (d : float) (td : timedelta) (rot_type frame_time : string),
    timedelta_days d = Ok td ->
    In rot_type profiles ->
    exists g : float -> float,
      (forall x, diff_rot (Days d) (Scalar x) rot_type frame_time
                 = Ok (Scalar (g x))) /\
      (forall xs, diff_rot (Days d) (NDArray xs) rot_type frame_time
                  = Ok (NDArray (map g xs))).
Proof.
  intros d td rot_type frame_time Htd Hp.
  apply profile_cases in Hp.
  unfold diff_rot. rewrite Htd. cbn [bind load_local].
  destruct Hp as [-> | [-> | ->]]; destruct (String.eqb frame_time "synodic");
    (eexists; split;
     [ intro x; cbn; reflexivity
     | intro xs; cbn; rewrite ?map_map, ?zip_with_map, ?map_map; reflexivity ]).
Qed.

(** *** rot_xy *)

(** X3.  The shape check comes first, and the only other failures are the
    time check, a rejected [interval], and the unbound [rsun]. *)
Theorem rot_xy_errors :
  forall (x y : value float) (date : pytime) (now : datetime)
         (kwargs : time_kwargs),
    (np.shape x <> np.shape y ->
     rot_xy x y date now kwargs = Raise (ValueError shape_message)) /\
    (forall e, rot_xy x y date now kwargs = Raise e ->
       (np.shape x <> np.shape y /\ e = ValueError shape_message) \/
       (exists s, interval kwargs = Some (IntervalSeconds s) /\
                  timedelta_seconds s = Raise e) \/
       e = ValueError time_message \/
       e = NameError "rsun").
Proof.
  intros x y date now [ts te iv]. unfold rot_xy, shape_neq.
  cbn [tstart tend interval].
  destruct (list_eq_dec Nat.eq_dec (np.shape x) (np.shape y)) as [Heq | Hne].
  - split; [intro H; contradiction |].
    intros e H. right.
    destruct iv as [[td | s] |].
    + right. cbn [bind] in H.
      destruct ts, te; cbn [is_none andb orb load_local bind] in H;
        try (destruct (flt _ _)); try discriminate;
        injection H as <-; auto.
    + destruct (timedelta_seconds s) as [td | e'] eqn:Hs.
      * right. cbn [bind] in H.
        destruct ts, te; cbn [is_none andb orb load_local bind] in H;
          try (destruct (flt _ _)); try discriminate;
          injection H as <-; auto.
      * left. exists s. cbn [bind] in H. injection H as <-. auto.
    + right. cbn [bind] in H.
      destruct ts, te; cbn [is_none andb orb load_local bind] in H;
        try (destruct (flt _ _)); try discriminate;
        injection H as <-; auto.
  - split; [reflexivity |].
    intros e H. injection H as <-. auto.
Qed.

(** X4.  A given [interval] decides the elapsed time alone. *)
Theorem rot_xy_interval_overrides :
  forall (x y : value float) (date date' : pytime) (now now' : datetime)
         (ts ts' te te' : option pytime) (iv : interval_arg),
    (ts <> None \/ te <> None) ->
    (ts' <> None \/ te' <> None) ->
    rot_xy x y date now {| tstart := ts; tend := te; interval := Some iv |}
    = rot_xy x y date' now' {| tstart := ts'; tend := te'; interval := Some iv |}.
Proof.
  intros x y date date' now now' ts ts' te te' iv H H'.
  unfold rot_xy. cbn [tstart tend interval].
  destruct (shape_neq (np.shape x) (np.shape y)); [reflexivity |].
  destruct iv as [td | s]; [| destruct (timedelta_seconds s); [| reflexivity]];
    cbn [bind];
    destruct ts, te, ts', te'; cbn [is_none andb orb load_local bind];
    try reflexivity;
    try (destruct H as [H | H]; now contradiction H);
    try (destruct H' as [H' | H']; now contradiction H').
Qed.

(** X5.  [rot_xy] returns (always [None]) only when the elapsed time it
    resolved is not positive, that is when there is nothing to rotate. *)
Theorem rot_xy_returns_without_rotation :
  forall (x y : value float) (date : pytime) (now : datetime)
         (kwargs : time_kwargs),
    rot_xy x y date now kwargs = Ok tt ->
    np.shape x = np.shape y /\
    exists delta : timedelta,
      flt (lit 0.0) (total_seconds delta) = false /\
      (interval kwargs = Some (IntervalDelta delta) \/
       (exists s, interval kwargs = Some (IntervalSeconds s) /\
                  timedelta_seconds s = Ok delta) \/
       (interval kwargs = None /\
        exists ts, tstart kwargs = Some ts /\
          delta = datetime_sub
                    match tend kwargs with
                    | Some t => parse_time t
                    | None => now
                    end (parse_time ts))).
Proof.
  intros x y date now [ts te iv]. unfold rot_xy, shape_neq.
  cbn [tstart tend interval].
  destruct (list_eq_dec Nat.eq_dec (np.shape x) (np.shape y)) as [Heq | Hne];
    [| discriminate].
  intro H. split; [exact Heq |].
  destruct iv as [[td | s] |].
  - exists td. cbn [bind] in H.
    destruct ts, te; cbn [is_none andb orb load_local bind] in H;
      try discriminate;
      (destruct (flt (lit 0.0) (total_seconds td)) eqn:E; [discriminate |]);
      auto.
  - destruct (timedelta_seconds s) as [td | e'] eqn:Hs; [| discriminate].
    exists td. cbn [bind] in H.
    destruct ts, te; cbn [is_none andb orb load_local bind] in H;
      try discriminate;
      (destruct (flt (lit 0.0) (total_seconds td)) eqn:E; [discriminate |]);
      split; auto; right; left; exists s; auto.
  - cbn [bind] in H.
    destruct ts as [t |]; cbn [is_none andb orb load_local bind] in H;
      [| destruct te; discriminate].
    eexists. split.
    + destruct (flt (lit 0.0) _) eqn:E in H; [discriminate | exact E].
    + right. right. split; [reflexivity |]. exists t. split; reflexivity.
Qed.

(** *** sun_pos *)


(** X7.  An array of Julian days gives, position by position and field by
    field, what the scalar call gives. *)
Theorem sun_pos_elementwise :
  forall since_2415020 : bool,
    exists lon ra_ dec_ app ob : float -> float,
      (forall x,
          sun_pos (Num (Scalar x)) true since_2415020
          = Ok {| longitude := Scalar (lon x); ra := Scalar (ra_ x);
                  dec := Scalar (dec_ x); app_long := Scalar (app x);
                  obliq := Scalar (ob x) |}) /\
      (forall xs,
          sun_pos (Num (NDArray xs)) true since_2415020
          = Ok {| longitude := NDArray (map lon xs); ra := NDArray (map ra_ xs);
                  dec := NDArray (map dec_ xs); app_long := NDArray (map app xs);
                  obliq := NDArray (map ob xs) |}).
Proof.
  intros since.
  assert (Hwrap : forall r : float,
             (if flt r (lit 0.0) then np.add (Scalar r) (pyfloat 360.0)
              else Scalar r) = Scalar (wrap_ra r)).
  { intro r. unfold wrap_ra. destruct (flt r (lit 0.0)); reflexivity. }
  destruct since.
  - do 5 eexists. split.
    + intro x. unfold sun_pos. cbn. rewrite Hwrap. reflexivity.
    + intro xs. unfold sun_pos. cbn.
      repeat (rewrite ?map_map, ?zip_with_map). reflexivity.
  - do 5 eexists. split.
    + intro x. unfold sun_pos. cbn. rewrite Hwrap. reflexivity.
    + intro xs. unfold sun_pos. cbn.
      repeat (rewrite ?map_map, ?zip_with_map). reflexivity.
Qed.

End FurtherStructural.

(** ** Further properties at the exact instance *)

Section FurtherExact.

Local Open Scope string_scope.
Local Open Scope R_scope.

(** *** Rounding half to even *)

Lemma rint_cases (x : R) :
  let n := Zfloor x in
  (x - IZR n < 1 / 2 /\ Exact.rint x = n) \/
  (1 / 2 < x - IZR n /\ Exact.rint x = (n + 1)%Z) \/
  (x - IZR n = 1 / 2 /\ Exact.rint x = if Z.even n then n else (n + 1)%Z).
Proof.
  cbv zeta. unfold Exact.rint.
  destruct (Rlt_dec (x - IZR (Zfloor x)) (1 / 2)) as [H | H]; [auto |].
  destruct (Rlt_dec (1 / 2) (x - IZR (Zfloor x))) as [H' | H']; [auto |].
  right. right. split; [lra | reflexivity].
Qed.

Lemma rint_near (x : R) : - (1 / 2) <= IZR (Exact.rint x) - x <= 1 / 2.
Proof.
  pose proof (Zfloor_bound x) as Hb.
  destruct (rint_cases x) as [[H ->] | [[H ->] | [H E]]].
  - lra.
  - rewrite plus_IZR. lra.
  - rewrite E. destruct (Z.even (Zfloor x)); [| rewrite plus_IZR]; lra.
Qed.

Lemma rint_small (x : R) : Rabs x < 1 / 2 -> Exact.rint x = 0%Z.
Proof.
  intro H. apply Rabs_def2 in H. destruct H as [Hhi Hlo].
  pose proof (Zfloor_bound x) as Hb.
  destruct (Rle_dec 0 x) as [Hx | Hx].
  - assert (E : Zfloor x = 0%Z) by (apply Zfloor_eq; simpl; lra).
    destruct (rint_cases x) as [[H ->] | [[H ->] | [H _]]];
      rewrite E in *; simpl in *; try reflexivity; lra.
  - assert (E : Zfloor x = (-1)%Z) by (apply Zfloor_eq; simpl; lra).
    destruct (rint_cases x) as [[H ->] | [[H ->] | [H _]]];
      rewrite E in *; simpl in *; try reflexivity; lra.
Qed.

Lemma rint_le (x y : R) : x <= y -> (Exact.rint x <= Exact.rint y)%Z.
Proof.
  intro Hxy.
  pose proof (Zfloor_bound x) as Hx. pose proof (Zfloor_bound y) as Hy.
  assert (Hn : (Zfloor x <= Zfloor y)%Z) by (apply Zfloor_lub; lra).
  destruct (Z.eq_dec (Zfloor x) (Zfloor y)) as [E | NE].
  - destruct (rint_cases x) as [[H ->] | [[H ->] | [H ->]]];
      destruct (rint_cases y) as [[H' ->] | [[H' ->] | [H' ->]]];
      rewrite <- ?E in *; try lia; try lra;
      destruct (Z.even (Zfloor x)); lia.
  - assert (Hlt : (Zfloor x + 1 <= Zfloor y)%Z) by lia.
    assert (Hux : (Exact.rint x <= Zfloor x + 1)%Z).
    { destruct (rint_cases x) as [[H ->] | [[H ->] | [H ->]]]; try lia.
      destruct (Z.even (Zfloor x)); lia. }
    assert (Hly : (Zfloor y <= Exact.rint y)%Z).
    { destruct (rint_cases y) as [[H ->] | [[H ->] | [H ->]]]; try lia.
      destruct (Z.even (Zfloor y)); lia. }
    lia.
Qed.

Lemma Zfloor_opp_frac (x : R) :
  x <> IZR (Zfloor x) -> Zfloor (- x) = (- Zfloor x - 1)%Z.
Proof.
  intro H. pose proof (Zfloor_bound x) as Hb.
  apply Zfloor_eq. rewrite minus_IZR, opp_IZR. lra.
Qed.

Lemma rint_opp (x : R) : Exact.rint (- x) = (- Exact.rint x)%Z.
Proof.
  pose proof (Zfloor_bound x) as Hb.
  destruct (Req_dec x (IZR (Zfloor x))) as [E | NE].
  - clear Hb. set (n := Zfloor x) in E. clearbody n. subst x.
    rewrite <- opp_IZR, !rint_IZR. reflexivity.
  - pose proof (Zfloor_opp_frac NE) as Ef.
    destruct (rint_cases x) as [[H ->] | [[H ->] | [H ->]]];
      destruct (rint_cases (- x)) as [[H' ->] | [[H' ->] | [H' ->]]];
      rewrite Ef in *; rewrite ?minus_IZR, ?opp_IZR in *; try lia; try lra.
    replace (- Zfloor x - 1)%Z with (- (Zfloor x + 1))%Z by lia.
    rewrite Z.even_opp, Z.even_add.
    destruct (Z.even (Zfloor x)); cbn; lia.
Qed.

Lemma pow10_pos (k : Z) : 0 < powerRZ 10 k.
Proof. apply powerRZ_lt. lra. Qed.

Lemma round_opp (x : R) (k : Z) : Exact.round (- x) k = - Exact.round x k.
Proof.
  unfold Exact.round.
  replace (- x * powerRZ 10 k) with (- (x * powerRZ 10 k)) by ring.
  rewrite rint_opp, opp_IZR. unfold Rdiv. ring.
Qed.

Lemma round_le (x y : R) (k : Z) :
  x <= y -> Exact.round x k <= Exact.round y k.
Proof.
  intro H. pose proof (pow10_pos k) as Hp. unfold Exact.round.
  apply Rmult_le_compat_r; [left; now apply Rinv_0_lt_compat |].
  apply IZR_le, rint_le. apply Rmult_le_compat_r; lra.
Qed.

Lemma round4_near (x : R) :
  - (1 / 20000) <= Exact.round x 4 - x <= 1 / 20000.
Proof.
  unfold Exact.round.
  change (powerRZ 10 4) with (10 * (10 * (10 * (10 * 1)))).
  pose proof (rint_near (x * (10 * (10 * (10 * (10 * 1)))))) as H.
  lra.
Qed.

(** *** sun_pos: ranges of the fields *)

Lemma mod_range (x m : R) : 0 < m -> 0 <= Exact.mod_ x m < m.
Proof.
  intro Hm. unfold Exact.mod_.
  pose proof (Zfloor_bound (x / m)) as [Hlo Hhi].
  assert (E : x = x / m * m) by (field; lra).
  split.
  - assert (m * IZR (Zfloor (x / m)) <= x / m * m) by nra. lra.
  - assert (x / m * m < m * (IZR (Zfloor (x / m)) + 1)) by nra. lra.
Qed.

(** X8.  The mean longitude is wrapped into [0, 360), in every position. *)
Theorem sun_pos_longitude_range :
  forall (date : date_arg R Z) (is_julian since_2415020 : bool),
    (is_julian = true -> exists v, date = Num v) ->
    exists e : ephemeris,
      sun_pos (RT := RealRuntime) date is_julian since_2415020 = Ok e /\
      all_elements (RT := RealRuntime) (fun r => 0 <= r < 360) (longitude e).
Proof.
  intros date is_julian since Hform.
  assert (Hrange : forall a : value R,
             all_elements (RT := RealRuntime) (fun r => 0 <= r < 360)
               (np.div (np.mod_ a (pyfloat 1296000.0)) (pyfloat 3600.0))).
  { intro a.
    apply all_lift2_scalar_r with (Q := fun r => 0 <= r < 1296000).
    - intros x Hx. change (0 <= x / Q2R 3600.0 < 360).
      unfold Q2R. cbn [Qnum Qden]. lra.
    - apply all_lift2_scalar_r with (Q := fun _ => True);
        [| apply all_elements_trivial].
      intros x _. change (0 <= Exact.mod_ x (Q2R 1296000.0) < 1296000).
      assert (Em : Q2R 1296000.0 = 1296000)
        by (unfold Q2R; cbn [Qnum Qden]; lra).
      assert (Hm : 0 < Q2R 1296000.0) by lra.
      pose proof (@mod_range x _ Hm) as [Hlo Hhi].
      split; [exact Hlo | rewrite <- Em; exact Hhi]. }
  destruct is_julian.
  - destruct (Hform eq_refl) as [v ->].
    destruct since; (eexists; split; [reflexivity |]);
      cbn [longitude]; apply Hrange.
  - destruct since; (eexists; split; [reflexivity |]);
      cbn [longitude]; apply Hrange.
Qed.

(** X9.  The declination lies in [-90, 90], in every position. *)
Theorem sun_pos_declination_range :
  forall (date : date_arg R Z) (is_julian since_2415020 : bool),
    (is_julian = true -> exists v, date = Num v) ->
    exists e : ephemeris,
      sun_pos (RT := RealRuntime) date is_julian since_2415020 = Ok e /\
      all_elements (RT := RealRuntime) (fun r => -90 <= r <= 90) (dec e).
Proof.
  intros date is_julian since Hform.
  assert (Hrange : forall a : value R,
             all_elements (RT := RealRuntime) (fun r => -90 <= r <= 90)
               (np.rad2deg (np.arcsin a))).
  { intro a. pose proof PI_RGT_0 as Hpi.
    apply all_lift1 with (Q := fun r => - (PI / 2) <= r <= PI / 2).
    - intros x [Hlo Hhi]. change (-90 <= x * (180 / PI) <= 90).
      assert (Hk : 0 < 180 / PI) by (apply Rdiv_lt_0_compat; lra).
      assert (E : PI / 2 * (180 / PI) = 90) by (field; lra).
      split.
      + apply Rle_trans with (- (PI / 2) * (180 / PI));
          [lra | apply Rmult_le_compat_r; lra].
      + apply Rle_trans with (PI / 2 * (180 / PI));
          [apply Rmult_le_compat_r; lra | lra].
    - apply all_lift1 with (Q := fun _ => True);
        [| apply all_elements_trivial].
      intros x _. apply asin_bound. }
  destruct is_julian.
  - destruct (Hform eq_refl) as [v ->].
    destruct since; (eexists; split; [reflexivity |]);
      cbn [dec]; apply Hrange.
  - destruct since; (eexists; split; [reflexivity |]);
      cbn [dec]; apply Hrange.
Qed.

Ltac trig_atoms :=
  repeat match goal with
         | |- context [Rtrigo_def.sin ?x] =>
             let H := fresh "Hs" in
             pose proof (SIN_bound x) as H;
             generalize dependent (Rtrigo_def.sin x); intros
         | |- context [Rtrigo_def.cos ?x] =>
             let H := fresh "Hc" in
             pose proof (COS_bound x) as H;
             generalize dependent (Rtrigo_def.cos x); intros
         end.

Ltac expose_reals :=
  cbn -[Q2R Rmult Rplus Rminus Rdiv Ropp IZR powerRZ PI Exact.round
        Exact.mod_ Exact.julian_day Exact.arctan2 Exact.ltb
        Rtrigo_def.sin Rtrigo_def.cos atan asin].

(** X10.  For a scalar instant the apparent longitude is the mean longitude
    less the aberration (20.5 arcsec) and the nutation (at most 17.2 arcsec
    either way); it is not wrapped again. *)
Theorem sun_pos_apparent_longitude :
  forall (date : date_arg R Z) (is_julian since_2415020 : bool),
    (is_julian = true -> exists x, date = Num (Scalar x)) ->
    exists (e : ephemeris) (lon ap : R),
      sun_pos (RT := RealRuntime) date is_julian since_2415020 = Ok e /\
      longitude e = Scalar lon /\ app_long e = Scalar ap /\
      lon - 37.7 / 3600 <= ap <= lon - 3.3 / 3600.
Proof.
  intros date is_julian since Hform.
  destruct is_julian.
  - destruct (Hform eq_refl) as [x ->].
    destruct since;
      (do 3 eexists; split; [reflexivity |];
       split; [reflexivity |]; split; [reflexivity |]);
      expose_reals; trig_atoms; unfold Q2R; cbn [Qnum Qden]; lra.
  - destruct since;
      (do 3 eexists; split; [reflexivity |];
       split; [reflexivity |]; split; [reflexivity |]);
      expose_reals; trig_atoms; unfold Q2R; cbn [Qnum Qden]; lra.
Qed.

(** X11.  The true obliquity is the mean obliquity of the date,
    23.452294 - 0.0130125 t degrees with t in Julian centuries from 1900.0,
    within the 9.2 arcsec of the nutation. *)
Theorem sun_pos_obliquity :
  forall dd : R,
    exists (e : ephemeris) (ob : R),
      sun_pos (RT := RealRuntime) (Num (Scalar dd)) true true = Ok e /\
      obliq e = Scalar ob /\
      - (9.2 / 3600) <= ob - (23.452294 - 0.0130125 * (dd / 36525))
      <= 9.2 / 3600.
Proof.
  intro dd. do 2 eexists. split; [reflexivity |]. split; [reflexivity |].
  expose_reals. trig_atoms. unfold Q2R. cbn [Qnum Qden]. lra.
Qed.

(** *** diff_rot: sign, size and frames *)

Lemma timedelta_days_opp (d : R) (td td' : Z) :
  timedelta_days (Runtime := RealRuntime) d = Ok td ->
  timedelta_days (Runtime := RealRuntime) (- d) = Ok td' ->
  td' = (- td)%Z.
Proof.
  cbn [timedelta_days RealRuntime]. unfold Exact.make_timedelta.
  replace (- d * 86400000000) with (- (d * 86400000000)) by ring.
  rewrite rint_opp.
  destruct (_ && _); [| discriminate]. destruct (_ && _); [| discriminate].
  intros H H'. injection H as <-. injection H' as <-. reflexivity.
Qed.

Ltac expose_rotation :=
  cbn -[Q2R Rmult Rplus Rminus Rdiv Ropp IZR powerRZ PI Exact.round
        Rtrigo_def.sin].

(** X12.  Rotating backward undoes rotating forward: when [timedelta]
    accepts both [d] and [-d], the result at [-d] is the negation of the
    result at [d] (and the same error if the profile is unknown). *)
Theorem diff_rot_backward :
  forall (d : R) (td td' : Z) (latitude : value R)
         (rot_type frame_time : string),
    timedelta_days (Runtime := RealRuntime) d = Ok td ->
    timedelta_days (Runtime := RealRuntime) (- d) = Ok td' ->
    diff_rot (RT := RealRuntime) (Days (- d)) latitude rot_type frame_time
    = bind (diff_rot (RT := RealRuntime) (Days d) latitude rot_type frame_time)
        (fun v => Ok (np.neg v)).
Proof.
  intros d td td' latitude rot_type frame_time Htd Htd'.
  pose proof (timedelta_days_opp _ Htd Htd') as ->.
  unfold diff_rot. rewrite Htd, Htd'. cbn [bind load_local].
  destruct (in_dec string_dec rot_type profiles) as [Hp | Hp].
  - apply profile_cases in Hp.
    destruct latitude as [x | xs];
      destruct Hp as [-> | [-> | ->]];
      destruct (String.eqb frame_time "synodic");
      expose_rotation; do 2 f_equal;
      try (repeat (rewrite ?map_map, ?(zip_with_map (RT := RealRuntime)));
           apply map_ext; intro x);
      rewrite <- round_opp; f_equal; rewrite opp_IZR; unfold Rdiv; ring.
  - rewrite !rotation_deg_unknown by assumption. reflexivity.
Qed.

Lemma lit_micro : Q2R (1 / 1000000) = / 1000000.
Proof.
  rewrite Qreals.Q2R_div by discriminate.
  unfold Q2R. cbn [Qnum Qden]. lra.
Qed.

Lemma sin_sq_range (x : R) :
  0 <= powerRZ (Rtrigo_def.sin x) 2 <= 1.
Proof.
  change (powerRZ (Rtrigo_def.sin x) 2)
    with (Rtrigo_def.sin x * (Rtrigo_def.sin x * 1)).
  pose proof (SIN_bound x). nra.
Qed.

(** The factor [1 / deg2rad(1)] is at least 45 degrees per radian. *)
Lemma deg2rad_one_inv : 45 <= / (Q2R 1 * (PI * / 180)).
Proof.
  pose proof PI_RGT_0 as Hpi. pose proof PI_4 as Hpi4.
  replace (Q2R 1 * (PI * / 180)) with (PI / 180)
    by (unfold Q2R; cbn [Qnum Qden]; lra).
  replace 45 with (/ (4 / 180)) by lra.
  apply Rinv_le_contravar; lra.
Qed.

(** X13.  Forward in time the rotation is never negative and nowhere
    larger than at the equator, for each profile and in both frames. *)
Theorem diff_rot_equator_fastest :
  forall (d : R) (td : Z) (x : R) (rot_type frame_time : string),
    timedelta_days (Runtime := RealRuntime) d = Ok td ->
    (0 <= td)%Z ->
    In rot_type profiles ->
    exists r r0 : R,
      diff_rot (RT := RealRuntime) (Days d) (Scalar x) rot_type frame_time
      = Ok (Scalar r) /\
      diff_rot (RT := RealRuntime) (Days d) (Scalar 0) rot_type frame_time
      = Ok (Scalar r0) /\
      0 <= r <= r0.
Proof.
  intros d td x rot_type frame_time Htd Hpos Hp.
  apply profile_cases in Hp.
  unfold diff_rot. rewrite Htd. cbn [bind load_local].
  pose proof (sin_sq_range (x * (PI / 180))) as Hs.
  assert (Hs0 : powerRZ (Rtrigo_def.sin (0 * (PI / 180))) 2 = 0).
  { rewrite Rmult_0_l, sin_0. change (powerRZ 0 2) with (0 * (0 * 1)). ring. }
  assert (Ht : 0 <= IZR td * / 1000000).
  { apply IZR_le in Hpos. lra. }
  pose proof deg2rad_one_inv as Hk.
  destruct Hp as [-> | [-> | ->]];
    destruct (String.eqb frame_time "synodic");
    expose_rotation; rewrite ?Hs0, ?lit_micro;
    (do 2 eexists; split; [reflexivity |]; split; [reflexivity |]);
    change (powerRZ 0 2) with (0 * (0 * 1));
    set (s2 := powerRZ (Rtrigo_def.sin (x * (PI / 180))) 2) in *;
    change (powerRZ s2 2) with (s2 * (s2 * 1));
    unfold Rdiv in *;
    set (T := IZR td * / 1000000) in *;
    set (K := / (Q2R 1 * (PI * / 180))) in *;
    assert (HTK : 45 * T <= T * K) by nra;
    (split;
     [ rewrite <- (round_zero 4) at 1 | ]; apply round_le;
     unfold Q2R; cbn [Qnum Qden]).
  all: try nra.
  all: match goal with
       | |- 0 <= ?rate * / 1000000 * ?T * ?K - _ =>
           assert (Hr : 2 <= rate) by nra;
           assert (Hp : 2 * (T * K) <= rate * (T * K)) by nra; nra
       | |- 0 <= ?rate * / 1000000 * ?T * ?K =>
           assert (Hr : 2 <= rate) by nra;
           assert (Hp : 2 * (T * K) <= rate * (T * K)) by nra; nra
       end.
Qed.

(** X14.  The two frames differ by 0.9856 degrees per elapsed day, up to
    the two roundings: one ten-thousandth of a degree at most. *)
Theorem diff_rot_frame_offset :
  forall (d : R) (td : Z) (x : R) (rot_type : string),
    timedelta_days (Runtime := RealRuntime) d = Ok td ->
    In rot_type profiles ->
    exists sidereal synodic : R,
      diff_rot (RT := RealRuntime) (Days d) (Scalar x) rot_type "sidereal"
      = Ok (Scalar sidereal) /\
      diff_rot (RT := RealRuntime) (Days d) (Scalar x) rot_type "synodic"
      = Ok (Scalar synodic) /\
      Rabs (sidereal - synodic - 0.9856 * (IZR td / 1000000 / 86400))
      <= 0.0001.
Proof.
  intros d td x rot_type Htd Hp.
  apply profile_cases in Hp.
  unfold diff_rot. rewrite Htd. cbn [bind load_local].
  destruct Hp as [-> | [-> | ->]];
    expose_rotation;
    (do 2 eexists; split; [reflexivity |]; split; [reflexivity |]);
    match goal with
    | |- Rabs (Exact.round ?z 4 - Exact.round (?z - ?c) 4 - _) <= _ =>
        pose proof (round4_near z) as H1;
        pose proof (round4_near (z - c)) as H2;
        generalize dependent (Exact.round z 4);
        generalize dependent (Exact.round (z - c) 4);
        intros; apply Rabs_le;
        unfold Q2R in *; cbn [Qnum Qden] in *; lra
    end.
Qed.

(** X15.  Durations have the resolution of [timedelta]: one that rounds to
    zero microseconds (less than half a microsecond either way) gives
    exactly 0 at every latitude. *)
Theorem diff_rot_below_resolution :
  forall (d : R) (latitude : value R) (rot_type frame_time : string),
    Rabs (d * 86400000000) < 1 / 2 ->
    In rot_type profiles ->
    diff_rot (RT := RealRuntime) (Days d) latitude rot_type frame_time
    = Ok (np.lift1 (fun _ => 0) latitude).
Proof.
  intros d latitude rot_type frame_time Hd Hp.
  assert (Htd : timedelta_days (Runtime := RealRuntime) d = Ok 0%Z).
  { cbn [timedelta_days RealRuntime]. unfold Exact.make_timedelta.
    rewrite (@rint_small _ Hd). reflexivity. }
  unfold diff_rot. rewrite Htd. cbn [bind load_local].
  apply profile_cases in Hp.
  destruct latitude as [x | xs];
    destruct Hp as [-> | [-> | ->]];
    destruct (String.eqb frame_time "synodic");
    expose_rotation; do 2 f_equal;
    try (repeat (rewrite ?map_map, ?(zip_with_map (RT := RealRuntime)));
         apply map_ext; intro x);
    (transitivity (Exact.round 0 4);
     [f_equal; unfold Rdiv; ring | apply round_zero]).
Qed.

(** *** The further properties at concrete arguments *)

(** An unknown profile with a one-day duration: the third way to fail. *)
Lemma diff_rot_errors_witness :
  diff_rot (RT := RealRuntime) (Days 1) (Scalar 30) "bogus" "sidereal"
  = Raise (ValueError rot_type_message) /\
  ((exists td, Days (RT := RealRuntime) 1 = Delta td /\
               ValueError rot_type_message = UnboundLocalError "delta") \/
   (exists d, Days (RT := RealRuntime) 1 = Days d /\
              timedelta_days d = Raise (ValueError rot_type_message)) \/
   (exists d td, Days (RT := RealRuntime) 1 = Days d /\
                 timedelta_days d = Ok td /\
                 ~ In "bogus" profiles /\
                 ValueError rot_type_message = ValueError rot_type_message)).
Proof.
  assert (H : diff_rot (RT := RealRuntime) (Days 1) (Scalar 30) "bogus" "sidereal"
              = Raise (ValueError rot_type_message)).
  { unfold diff_rot. rewrite (timedelta_days_whole (n := 1)) by lia.
    reflexivity. }
  split; [exact H | exact (diff_rot_errors _ _ _ _ H)].
Defined.

(** Two days under the profile of Howard, synodic frame. *)
Lemma diff_rot_elementwise_witness :
  timedelta_days (Runtime := RealRuntime) 2 = Ok 172800000000%Z /\
  In "howard" profiles /\
  exists g : R -> R,
    (forall x, diff_rot (RT := RealRuntime) (Days 2) (Scalar x) "howard" "synodic"
               = Ok (Scalar (g x))) /\
    (forall xs, diff_rot (RT := RealRuntime) (Days 2) (NDArray xs) "howard" "synodic"
                = Ok (NDArray (map g xs))).
Proof.
  assert (Htd : timedelta_days (Runtime := RealRuntime) 2 = Ok 172800000000%Z)
    by (apply (timedelta_days_whole (n := 2)); lia).
  assert (Hp : In "howard" profiles) by (cbn; auto).
  split; [exact Htd | split; [exact Hp |]].
  exact (@diff_rot_elementwise RealRuntime 2 172800000000%Z "howard" "synodic"
           Htd Hp).
Defined.

(** A scalar against an array of one element: the shapes differ. *)
Lemma rot_xy_errors_witness :
  np.shape (RT := RealRuntime) (Scalar 0) <> np.shape (NDArray [0]) /\
  rot_xy (RT := RealRuntime) (Scalar 0) (NDArray [0]) 0%Z 0%Z
    (@Build_time_kwargs RealRuntime None None None)
  = Raise (ValueError shape_message).
Proof.
  assert (H : np.shape (RT := RealRuntime) (Scalar 0) <> np.shape (NDArray [0]))
    by (cbn; discriminate).
  split; [exact H |].
  exact (proj1 (@rot_xy_errors RealRuntime (Scalar 0) (NDArray [0]) 0%Z 0%Z
                  (@Build_time_kwargs RealRuntime None None None)) H).
Defined.

(** The same seven-microsecond interval with a start, and with an end. *)
Lemma rot_xy_interval_overrides_witness :
  rot_xy (RT := RealRuntime) (Scalar 0) (Scalar 0) 0%Z 0%Z
    (@Build_time_kwargs RealRuntime (Some 0%Z) None (Some (IntervalDelta 7%Z)))
  = rot_xy (RT := RealRuntime) (Scalar 0) (Scalar 0) 1%Z 2%Z
      (@Build_time_kwargs RealRuntime None (Some 5%Z) (Some (IntervalDelta 7%Z))).
Proof.
  apply (@rot_xy_interval_overrides RealRuntime).
  - left. discriminate.
  - right. discriminate.
Defined.

(** With the clock at [tstart] the elapsed time is zero and [None] comes
    back. *)
Lemma rot_xy_returns_without_rotation_witness :
  rot_xy (RT := RealRuntime) (Scalar 0) (Scalar 0) 0%Z 0%Z
    (@Build_time_kwargs RealRuntime (Some 0%Z) None None)
  = Ok tt /\
  np.shape (RT := RealRuntime) (Scalar 0) = np.shape (Scalar 0).
Proof.
  assert (H : rot_xy (RT := RealRuntime) (Scalar 0) (Scalar 0) 0%Z 0%Z
                (@Build_time_kwargs RealRuntime (Some 0%Z) None None)
              = Ok tt).
  { unfold rot_xy. rewrite shape_neq_same by reflexivity.
    cbn [tstart tend interval bind is_none andb orb load_local].
    cbn [flt total_seconds lit datetime_sub parse_time RealRuntime].
    rewrite ltb_false; [reflexivity |].
    unfold Q2R. cbn. lra. }
  split; [exact H |].
  exact (proj1 (rot_xy_returns_without_rotation _ _ _ _ _ H)).
Defined.


Lemma sun_pos_longitude_range_witness :
  exists e : ephemeris,
    sun_pos (RT := RealRuntime) (Num (Scalar 2456378.5)) true false = Ok e /\
    all_elements (RT := RealRuntime) (fun r => 0 <= r < 360) (longitude e).
Proof.
  apply (@sun_pos_longitude_range (Num (Scalar 2456378.5)) true false).
  intros _. exists (Scalar 2456378.5). reflexivity.
Defined.

Lemma sun_pos_declination_range_witness :
  exists e : ephemeris,
    sun_pos (RT := RealRuntime) (Num (Scalar 2456378.5)) true false = Ok e /\
    all_elements (RT := RealRuntime) (fun r => -90 <= r <= 90) (dec e).
Proof.
  apply (@sun_pos_declination_range (Num (Scalar 2456378.5)) true false).
  intros _. exists (Scalar 2456378.5). reflexivity.
Defined.

Lemma sun_pos_apparent_longitude_witness :
  exists (e : ephemeris) (lon ap : R),
    sun_pos (RT := RealRuntime) (Num (Scalar 2456378.5)) true false = Ok e /\
    longitude e = Scalar lon /\ app_long e = Scalar ap /\
    lon - 37.7 / 3600 <= ap <= lon - 3.3 / 3600.
Proof.
  apply (@sun_pos_apparent_longitude (Num (Scalar 2456378.5)) true false).
  intros _. exists 2456378.5. reflexivity.
Defined.

(** One day forward and one day backward at 30 degrees. *)
Lemma diff_rot_backward_witness :
  diff_rot (RT := RealRuntime) (Days (- 1)) (Scalar 30) "allen" "synodic"
  = bind (diff_rot (RT := RealRuntime) (Days 1) (Scalar 30) "allen" "synodic")
      (fun v => Ok (np.neg v)).
Proof.
  apply (@diff_rot_backward 1 86400000000%Z (-86400000000)%Z).
  - apply (timedelta_days_whole (n := 1)). lia.
  - rewrite <- (opp_IZR 1). apply (timedelta_days_whole (n := -1)). lia.
Defined.

Lemma diff_rot_equator_fastest_witness :
  exists r r0 : R,
    diff_rot (RT := RealRuntime) (Days 1) (Scalar 30) "snodgrass" "synodic"
    = Ok (Scalar r) /\
    diff_rot (RT := RealRuntime) (Days 1) (Scalar 0) "snodgrass" "synodic"
    = Ok (Scalar r0) /\
    0 <= r <= r0.
Proof.
  apply (@diff_rot_equator_fastest 1 86400000000%Z 30 "snodgrass" "synodic").
  - apply (timedelta_days_whole (n := 1)). lia.
  - lia.
  - cbn. auto.
Defined.

Lemma diff_rot_frame_offset_witness :
  exists sidereal synodic : R,
    diff_rot (RT := RealRuntime) (Days 1) (Scalar 30) "howard" "sidereal"
    = Ok (Scalar sidereal) /\
    diff_rot (RT := RealRuntime) (Days 1) (Scalar 30) "howard" "synodic"
    = Ok (Scalar synodic) /\
    Rabs (sidereal - synodic - 0.9856 * (IZR 86400000000 / 1000000 / 86400))
    <= 0.0001.
Proof.
  apply (@diff_rot_frame_offset 1 86400000000%Z 30 "howard").
  - apply (timedelta_days_whole (n := 1)). lia.
  - cbn. auto.
Defined.

(** A picosecond, as a number of days. *)
Lemma diff_rot_below_resolution_witness :
  diff_rot (RT := RealRuntime) (Days (1 / 86400000000000000)) (Scalar 30)
    "howard" "sidereal"
  = Ok (Scalar 0).
Proof.
  apply (@diff_rot_below_resolution (1 / 86400000000000000) (Scalar 30)
           "howard" "sidereal").
  - apply Rabs_def1; lra.
  - cbn. auto.
Defined.

End FurtherExact.
